(** * json_syntax.attrs: the rules for composite types

    A shallow embedding of [src/json_syntax/attrs.py]: the three rules
    [attrs_classes], [named_tuples] and [tuples], each taking a verb and a
    type and returning either [None] or the artifact for that verb.

    The rules talk to two collaborators that live outside the module: the
    resolution context ([ctx.lookup]) and the forward reference resolver
    ([resolve_fwd_ref]).  A rule is therefore embedded as a tree of
    collaborator calls ([Prog]); the calls a rule makes, their arguments and
    their order are read off the tree, and running the tree against any
    pair of collaborators gives the object the rule returns. *)

From stdpp Require Import base option list strings gmap fin_maps.

Open Scope string_scope.
Open Scope list_scope.

(** ** Data model *)

(** The verbs of [helpers]; a rule may be handed any other object as a verb. *)
Inductive Verb : Type :=
| JSON2PY
| PY2JSON
| INSP_JSON
| INSP_PY
| PATTERN
| OtherVerb (name : string).

(** [verb in (JSON2PY, PY2JSON, INSP_PY, INSP_JSON, PATTERN)] *)
Definition supported (verb : Verb) : bool :=
  match verb with
  | OtherVerb _ => false
  | _ => true
  end.

(** What a field annotation or a [Tuple] argument can hold. *)
Inductive TypeRef : Type :=
| TyNone                       (* None: the field carries no annotation *)
| TyClass (name : string)      (* a type object *)
| TyFwdRef (name : string)     (* a forward reference, still unresolved *)
| TyEllipsis.                  (* Ellipsis, as in Tuple[int, ...] *)

(** Python objects the rules pass around without looking inside: class
    members, field defaults, and what [ctx.lookup] hands back. *)
Inductive Value : Type :=
| PyNone
| SENTINEL                                  (* helpers.SENTINEL *)
| identity                                  (* helpers.identity *)
| Unkown                                    (* pattern.Unkown *)
| PyBool (b : bool)
| PyInt (z : Z)
| PyStr (s : string)
| PyFunction (qualname : string)            (* a function or method object *)
| PyObject (label : string) (truth : bool). (* any other object and its truth value *)

(** Truth value testing, as done by [if x:] and [x or y]. *)
Definition truthy (v : Value) : bool :=
  match v with
  | PyNone => false
  | PyBool b => b
  | PyInt z => negb (Z.eqb z 0)
  | PyStr s => negb (String.eqb s "")
  | PyObject _ truth => truth
  | SENTINEL | identity | Unkown | PyFunction _ => true
  end.

(** [a or b] *)
Definition py_or (a b : Value) : Value := if truthy a then a else b.

(** An [attr.Attribute] or a [dataclasses.Field], with the answer of
    [helpers.is_attrs_field_required] on it. *)
Record Field : Type := {
  field_name : string;
  field_type : TypeRef;
  field_default : Value;
  field_init : bool;
  field_required : bool            (* is_attrs_field_required(field) *)
}.

(** A type object, as far as the rules inspect it. *)
Record PyType : Type := {
  __name__ : string;
  __attrs_attrs__ : option (list Field);
  __dataclass_fields__ : option (list (string * Field));  (* dict, in insertion order *)
  members : gmap string Value;       (* other class members, reached by getattr/hasattr *)
  is_tuple_subclass : bool;          (* issub_safe(typ, tuple) *)
  _field_types : option (list (string * TypeRef));        (* dict, in insertion order *)
  _fields : option (list string);
  _fields_defaults : option (gmap string Value);
  _field_defaults : option (gmap string Value);
  origin_is_tuple : bool;            (* has_origin(typ, tuple) *)
  __args__ : list TypeRef
}.

(** [getattr(typ, name, dflt)] and [hasattr(typ, name)] on class members. *)
Definition getattr (typ : PyType) (name : string) (dflt : Value) : Value :=
  default dflt (members typ !! name).

Definition hasattr (typ : PyType) (name : string) : bool :=
  bool_decide (is_Some (members typ !! name)).

(** The third component a rule appends to an [inner_map] tuple. *)
Inductive Extra : Type :=
| NoExtra                    (* JSON2PY: the tuple stays a pair *)
| Default (v : Value)        (* PY2JSON: the field's default *)
| Required (req : bool).     (* INSP_JSON, PATTERN: is the field required *)

(** One entry of [inner_map]: [(name, inner)] plus what was appended. *)
Record Tup : Type := {
  tup_name : string;
  tup_inner : Value;
  tup_extra : Extra
}.

Inductive Builtin : Type := py_tuple | py_list.

(** [pat.String.exact(name)] *)
Inductive StringPattern : Type := String_exact (name : string).

(** What a rule returns: an object it found and passes on as it is, a
    [functools.partial] over one of the actions of [action_v1], or a
    pattern it built. *)
Inductive PyObj : Type :=
| Obj (v : Value)
| Partial_check_isinst (typ : PyType)
| Partial_convert_dict_to_attrs (pre_hook : Value) (inner_map : list Tup) (con : PyType)
| Partial_convert_attrs_to_dict (post_hook : option string) (inner_map : list Tup)
| Partial_check_dict (inner_map : list Tup) (pre_hook : Value)
| Partial_convert_tuple_as_list (inner : list Value) (con : Builtin)
| Partial_check_tuple_as_list (inner : list Value) (con : Builtin)
| Object_exact (entries : list (StringPattern * Value))
| Array_exact (inner : list Value).

(** ** Rules as trees of collaborator calls *)

Inductive Prog (A : Type) : Type :=
| Ret (a : A)
| ResolveFwdRef (declared : TypeRef) (owner : PyType) (k : TypeRef -> Prog A)
| CtxLookup (verb : Verb) (typ : TypeRef) (accept_missing : option bool)
            (k : Value -> Prog A).

Arguments Ret {A} a.
Arguments ResolveFwdRef {A} declared owner k.
Arguments CtxLookup {A} verb typ accept_missing k.

Fixpoint bind {A B : Type} (f : A -> Prog B) (m : Prog A) : Prog B :=
  match m with
  | Ret a => f a
  | ResolveFwdRef d o k => ResolveFwdRef d o (fun t => bind f (k t))
  | CtxLookup v t am k => CtxLookup v t am (fun a => bind f (k a))
  end.

#[global] Instance Prog_ret : MRet Prog := @Ret.
#[global] Instance Prog_bind : MBind Prog := @bind.

(** [resolve_fwd_ref(declared, owner)] *)
Definition resolve_fwd_ref (declared : TypeRef) (owner : PyType) : Prog TypeRef :=
  ResolveFwdRef declared owner Ret.

(** [ctx.lookup(verb=verb, typ=typ, accept_missing=...)]; the flag is [None]
    when the call does not pass it. *)
Definition ctx_lookup (verb : Verb) (typ : TypeRef) (accept_missing : option bool)
  : Prog Value :=
  CtxLookup verb typ accept_missing Ret.

(** [[body(x) for x in xs]] *)
Fixpoint for_each {A B : Type} (xs : list A) (body : A -> Prog B) : Prog (list B) :=
  match xs with
  | [] => Ret []
  | x :: rest =>
      y ← body x;
      ys ← for_each rest body;
      Ret (y :: ys)
  end.

(** The collaborators a rule is run against. *)
Record Collaborators : Type := {
  resolve : TypeRef -> PyType -> TypeRef;
  lookup : Verb -> TypeRef -> option bool -> Value
}.

Inductive Event : Type :=
| Resolved (declared : TypeRef) (owner : PyType)
| LookedUp (verb : Verb) (typ : TypeRef) (accept_missing : option bool).

Fixpoint run {A : Type} (c : Collaborators) (p : Prog A) : A :=
  match p with
  | Ret a => a
  | ResolveFwdRef d o k => run c (k (resolve c d o))
  | CtxLookup v t am k => run c (k (lookup c v t am))
  end.

Fixpoint trace {A : Type} (c : Collaborators) (p : Prog A) : list Event :=
  match p with
  | Ret _ => []
  | ResolveFwdRef d o k => Resolved d o :: trace c (k (resolve c d o))
  | CtxLookup v t am k => LookedUp v t am :: trace c (k (lookup c v t am))
  end.

#[global] Instance TypeRef_eq_dec : EqDecision TypeRef.
Proof. solve_decision. Defined.

#[global] Instance Value_eq_dec : EqDecision Value.
Proof. solve_decision. Defined.

#[global] Instance Verb_eq_dec : EqDecision Verb.
Proof. solve_decision. Defined.

#[global] Instance Field_eq_dec : EqDecision Field.
Proof. solve_decision. Defined.

#[global] Instance PyType_eq_dec : EqDecision PyType.
Proof. solve_decision. Defined.

(** ** attrs_classes *)

(** [typ.__attrs_attrs__], else the values of [typ.__dataclass_fields__],
    else nothing (both lookups raised AttributeError). *)
Definition attrs_fields (typ : PyType) : option (list Field) :=
  match __attrs_attrs__ typ with
  | Some fields => Some fields
  | None =>
      match __dataclass_fields__ typ with
      | Some fields => Some (fields.*2)
      | None => None
      end
  end.

(** The tuple built for one field inside the loop of [attrs_classes]. *)
Definition attrs_tup (verb : Verb) (typ : PyType) (field : Field) : Prog Tup :=
  t ← resolve_fwd_ref (field_type field) typ;
  inner ← ctx_lookup verb t (Some true);
  Ret {| tup_name := field_name field;
         tup_inner := inner;
         tup_extra := match verb with
                      | PY2JSON => Default (field_default field)
                      | INSP_JSON | PATTERN => Required (field_required field)
                      | _ => NoExtra
                      end |}.

(** The loop [for field in fields: if field.init: ... inner_map.append(tup)]. *)
Fixpoint attrs_inner_map (verb : Verb) (typ : PyType) (fields : list Field)
  : Prog (list Tup) :=
  match fields with
  | [] => Ret []
  | field :: rest =>
      if field_init field then
        tup ← attrs_tup verb typ field;
        inner_map ← attrs_inner_map verb typ rest;
        Ret (tup :: inner_map)
      else attrs_inner_map verb typ rest
  end.

(** The [req] of [for name, inner, req in inner_map if req]. *)
Definition tup_req (tup : Tup) : bool :=
  match tup_extra tup with
  | Required req => req
  | Default v => truthy v
  | NoExtra => false
  end.

(** [(pat.String.exact(name), inner or pat.Unkown) for name, inner, req in
    inner_map if req] *)
Definition attrs_pattern_entries (inner_map : list Tup) : list (StringPattern * Value) :=
  (fun tup => (String_exact (tup_name tup), py_or (tup_inner tup) Unkown))
    <$> filter (fun tup => tup_req tup = true) inner_map.

(** The rule itself.  [inner_map] goes to [check_dict] as the list it is and
    to the other actions as [tuple(inner_map)]; both are a [list Tup] here. *)
Definition attrs_classes (verb : Verb) (typ : PyType)
    (pre_hook post_hook check : string) : Prog PyObj :=
  if negb (supported verb) then Ret (Obj PyNone) else
  match attrs_fields typ with
  | None => Ret (Obj PyNone)
  | Some fields =>
      match verb with
      | INSP_PY => Ret (Partial_check_isinst typ)
      | _ =>
          inner_map ← attrs_inner_map verb typ fields;
          match verb with
          | JSON2PY =>
              let pre_hook_method := getattr typ pre_hook identity in
              Ret (Partial_convert_dict_to_attrs pre_hook_method inner_map typ)
          | PY2JSON =>
              let post_hook := if hasattr typ post_hook then Some post_hook else None in
              Ret (Partial_convert_attrs_to_dict post_hook inner_map)
          | INSP_JSON =>
              let check := getattr typ check PyNone in
              if truthy check then Ret (Obj check) else
              let pre_hook_method := getattr typ pre_hook identity in
              Ret (Partial_check_dict inner_map pre_hook_method)
          | PATTERN => Ret (Object_exact (attrs_pattern_entries inner_map))
          | _ => Ret (Obj PyNone)
          end
      end
  end.

(** ** named_tuples *)

(** [typ._field_types.items()], else [[(name, None) for name in typ._fields]],
    else nothing. *)
Definition named_tuple_fields (typ : PyType) : option (list (string * TypeRef)) :=
  match _field_types typ with
  | Some fields => Some fields
  | None =>
      match _fields typ with
      | Some fields => Some ((fun name => (name, TyNone)) <$> fields)
      | None => None
      end
  end.

(** [d.update(other)]: the entries of [other] win. *)
Definition dict_update (d other : gmap string Value) : gmap string Value := other ∪ d.

(** [defaults = {}] updated from [_fields_defaults], then from
    [_field_defaults]; a table the type lacks counts as [()]. *)
Definition named_tuple_defaults (typ : PyType) : gmap string Value :=
  dict_update (dict_update ∅ (default ∅ (_fields_defaults typ)))
              (default ∅ (_field_defaults typ)).

(** The tuple built for one field inside the loop of [named_tuples]. *)
Definition named_tuple_tup (verb : Verb) (typ : PyType)
    (defaults : gmap string Value) (item : string * TypeRef) : Prog Tup :=
  let '(name, inner) := item in
  t ← resolve_fwd_ref inner typ;
  inner ← ctx_lookup verb t (Some true);
  Ret {| tup_name := name;
         tup_inner := inner;
         tup_extra := match verb with
                      | PY2JSON => Default (default SENTINEL (defaults !! name))
                      | INSP_JSON | PATTERN =>
                          Required (bool_decide (defaults !! name = None))
                      | _ => NoExtra
                      end |}.

(** [(pat.String.exact(name), inner) for name, inner, req in inner_map if req] *)
Definition named_tuple_pattern_entries (inner_map : list Tup)
  : list (StringPattern * Value) :=
  (fun tup => (String_exact (tup_name tup), tup_inner tup))
    <$> filter (fun tup => tup_req tup = true) inner_map.

Definition named_tuples (verb : Verb) (typ : PyType) : Prog PyObj :=
  if negb (supported verb) || negb (is_tuple_subclass typ) then Ret (Obj PyNone) else
  match named_tuple_fields typ with
  | None => Ret (Obj PyNone)
  | Some fields =>
      match verb with
      | INSP_PY => Ret (Partial_check_isinst typ)
      | _ =>
          let defaults := named_tuple_defaults typ in
          inner_map ← for_each fields (named_tuple_tup verb typ defaults);
          match verb with
          | JSON2PY => Ret (Partial_convert_dict_to_attrs identity inner_map typ)
          | PY2JSON => Ret (Partial_convert_attrs_to_dict None inner_map)
          | INSP_JSON => Ret (Partial_check_dict inner_map identity)
          | PATTERN => Ret (Object_exact (named_tuple_pattern_entries inner_map))
          | _ => Ret (Obj PyNone)
          end
      end
  end.

(** ** tuples *)

Definition tuples (verb : Verb) (typ : PyType) : Prog PyObj :=
  if negb (supported verb) || negb (origin_is_tuple typ) then Ret (Obj PyNone) else
  let args := __args__ typ in
  if bool_decide (TyEllipsis ∈ args) then Ret (Obj PyNone) else
  inner ← for_each args (fun arg => ctx_lookup verb arg None);
  match verb with
  | JSON2PY => Ret (Partial_convert_tuple_as_list inner py_tuple)
  | PY2JSON => Ret (Partial_convert_tuple_as_list inner py_list)
  | INSP_PY => Ret (Partial_check_tuple_as_list inner py_tuple)
  | INSP_JSON => Ret (Partial_check_tuple_as_list inner py_list)
  | PATTERN => Ret (Array_exact inner)
  | _ => Ret (Obj PyNone)
  end.

(** ** What a rule records for one field *)

(** The fields [attrs_classes] keeps. *)
Definition init_fields (fields : list Field) : list Field :=
  filter (fun f => field_init f = true) fields.

(** What [attrs_tup] returns when run against [c]. *)
Definition attrs_entry (c : Collaborators) (verb : Verb) (typ : PyType)
    (field : Field) : Tup :=
  {| tup_name := field_name field;
     tup_inner := lookup c verb (resolve c (field_type field) typ) (Some true);
     tup_extra := match verb with
                  | PY2JSON => Default (field_default field)
                  | INSP_JSON | PATTERN => Required (field_required field)
                  | _ => NoExtra
                  end |}.

(** What [named_tuple_tup] returns when run against [c]. *)
Definition named_tuple_entry (c : Collaborators) (verb : Verb) (typ : PyType)
    (item : string * TypeRef) : Tup :=
  {| tup_name := item.1;
     tup_inner := lookup c verb (resolve c item.2 typ) (Some true);
     tup_extra := match verb with
                  | PY2JSON =>
                      Default (default SENTINEL (named_tuple_defaults typ !! item.1))
                  | INSP_JSON | PATTERN =>
                      Required (bool_decide (named_tuple_defaults typ !! item.1 = None))
                  | _ => NoExtra
                  end |}.

(** The calls [attrs_classes] and [named_tuples] make for one declared type:
    the resolver first, then the context on the resolver's answer. *)
Definition field_events (c : Collaborators) (verb : Verb) (typ : PyType)
    (declared : TypeRef) : list Event :=
  [Resolved declared typ; LookedUp verb (resolve c declared typ) (Some true)].

(** The object [named_tuples] returns for each verb it builds a field list
    for. *)
Definition named_tuple_artifact (verb : Verb) (typ : PyType)
    (inner_map : list Tup) : PyObj :=
  match verb with
  | JSON2PY => Partial_convert_dict_to_attrs identity inner_map typ
  | PY2JSON => Partial_convert_attrs_to_dict None inner_map
  | INSP_JSON => Partial_check_dict inner_map identity
  | PATTERN => Object_exact (named_tuple_pattern_entries inner_map)
  | _ => Obj PyNone
  end.

(** The object [tuples] returns for each verb. *)
Definition tuple_artifact (verb : Verb) (inner : list Value) : PyObj :=
  match verb with
  | JSON2PY => Partial_convert_tuple_as_list inner py_tuple
  | PY2JSON => Partial_convert_tuple_as_list inner py_list
  | INSP_PY => Partial_check_tuple_as_list inner py_tuple
  | INSP_JSON => Partial_check_tuple_as_list inner py_list
  | PATTERN => Array_exact inner
  | OtherVerb _ => Obj PyNone
  end.

(** ** The three rules under one name *)

(** A rule of the module together with the keyword arguments it is
    registered with. *)
Inductive Rule : Type :=
| AttrsClasses (pre_hook post_hook check : string)
| NamedTuples
| Tuples.

Definition apply_rule (rule : Rule) (verb : Verb) (typ : PyType) : Prog PyObj :=
  match rule with
  | AttrsClasses pre_hook post_hook check => attrs_classes verb typ pre_hook post_hook check
  | NamedTuples => named_tuples verb typ
  | Tuples => tuples verb typ
  end.

(** Does the type expose the metadata the rule reads? *)
Definition exposes_shape (rule : Rule) (typ : PyType) : bool :=
  match rule with
  | AttrsClasses _ _ _ =>
      bool_decide (is_Some (__attrs_attrs__ typ))
      || bool_decide (is_Some (__dataclass_fields__ typ))
  | NamedTuples =>
      is_tuple_subclass typ
      && (bool_decide (is_Some (_field_types typ)) || bool_decide (is_Some (_fields typ)))
  | Tuples => origin_is_tuple typ
  end.

(** Is the type matched by the rule?  A [Tuple] with [Ellipsis] among its
    arguments has the shape but is left to the lists rule. *)
Definition matched (rule : Rule) (typ : PyType) : bool :=
  exposes_shape rule typ
  && match rule with
     | Tuples => bool_decide (TyEllipsis ∉ __args__ typ)
     | _ => true
     end.

(** The declared types the rule goes through, in the order it meets them. *)
Definition declared_types (rule : Rule) (typ : PyType) : list TypeRef :=
  match rule with
  | AttrsClasses _ _ _ =>
      field_type <$> filter (fun f => field_init f = true) (default [] (attrs_fields typ))
  | NamedTuples => (default [] (named_tuple_fields typ)).*2
  | Tuples => __args__ typ
  end.

(** Does the rule build per-field artifacts for the verb? *)
Definition needs_inner (rule : Rule) (verb : Verb) : bool :=
  supported verb
  && match rule, verb with
     | Tuples, _ => true
     | _, INSP_PY => false
     | _, _ => true
     end.

(** The [ctx.lookup] calls of a trace: verb, type and flag of each. *)
Definition lookups (events : list Event) : list (Verb * TypeRef * option bool) :=
  omap (fun e => match e with
                 | LookedUp verb typ accept_missing => Some (verb, typ, accept_missing)
                 | Resolved _ _ => None
                 end) events.

(** The field names an artifact is built over. *)
Definition artifact_field_names (artifact : PyObj) : list string :=
  match artifact with
  | Partial_convert_dict_to_attrs _ inner_map _
  | Partial_convert_attrs_to_dict _ inner_map
  | Partial_check_dict inner_map _ => tup_name <$> inner_map
  | Object_exact entries => (fun e => match e.1 with String_exact name => name end) <$> entries
  | _ => []
  end.

(** The calls a rule makes for one declared type. *)
Definition rule_events (c : Collaborators) (rule : Rule) (verb : Verb)
    (typ : PyType) (declared : TypeRef) : list Event :=
  match rule with
  | Tuples => [LookedUp verb declared None]
  | _ => field_events c verb typ declared
  end.

(** ** Sample types (tests/types_attrs_noann.py) and sample collaborators *)

Definition NOTHING : Value := PyObject "attr.NOTHING" false.

Definition attrs_class (name : string) (fields : list Field)
    (class_members : list (string * Value)) : PyType :=
  {| __name__ := name;
     __attrs_attrs__ := Some fields;
     __dataclass_fields__ := None;
     members := list_to_map class_members;
     is_tuple_subclass := false;
     _field_types := None;
     _fields := None;
     _fields_defaults := None;
     _field_defaults := None;
     origin_is_tuple := false;
     __args__ := [] |}.

Definition namedtuple (name : string) (fields : list string)
    (defaults : list (string * Value)) : PyType :=
  {| __name__ := name;
     __attrs_attrs__ := None;
     __dataclass_fields__ := None;
     members := ∅;
     is_tuple_subclass := true;
     _field_types := None;
     _fields := Some fields;
     _fields_defaults := None;
     _field_defaults := Some (list_to_map defaults);
     origin_is_tuple := false;
     __args__ := [] |}.

Definition Tuple (args : list TypeRef) : PyType :=
  {| __name__ := "Tuple";
     __attrs_attrs__ := None;
     __dataclass_fields__ := None;
     members := ∅;
     is_tuple_subclass := false;
     _field_types := None;
     _fields := None;
     _fields_defaults := None;
     _field_defaults := None;
     origin_is_tuple := true;
     __args__ := args |}.

Definition attr_ib (name : string) (default : Value) (type : TypeRef) : Field :=
  {| field_name := name;
     field_type := type;
     field_default := default;
     field_init := true;
     field_required := bool_decide (default = NOTHING) |}.

Definition Flat1 : PyType :=
  attrs_class "Flat1"
    [attr_ib "a" NOTHING (TyClass "int"); attr_ib "b" (PyStr "default") (TyClass "str")]
    [].

Definition Hook1 : PyType :=
  attrs_class "Hook1"
    [attr_ib "a" NOTHING (TyClass "int"); attr_ib "b" (PyStr "default") (TyClass "str")]
    [("__json_pre_decode__", PyFunction "Hooks.__json_pre_decode__");
     ("__json_check__", PyFunction "Hooks.__json_check__");
     ("__json_post_encode__", PyFunction "Hooks.__json_post_encode__")].

(** A class with a field that is computed, not passed to [__init__]. *)
Definition Computed : PyType :=
  attrs_class "Computed"
    [attr_ib "a" NOTHING (TyClass "int");
     {| field_name := "total";
        field_type := TyClass "int";
        field_default := PyInt 0;
        field_init := false;
        field_required := false |}]
    [].

(** A class whose only field carries no annotation. *)
Definition Bare : PyType := attrs_class "Bare" [attr_ib "a" NOTHING TyNone] [].

Definition Named1 : PyType := namedtuple "Named1" ["a"; "b"] [].

Definition Named2 : PyType := namedtuple "Named2" ["a"; "b"] [("b", PyStr "default")].

(** A named tuple that declares the [SENTINEL] object itself as a default. *)
Definition Sneaky : PyType := namedtuple "Sneaky" ["a"] [("a", SENTINEL)].

(** A typed named tuple carrying both default tables, which disagree on [b]. *)
Definition TwoTables : PyType :=
  {| __name__ := "TwoTables";
     __attrs_attrs__ := None;
     __dataclass_fields__ := None;
     members := {[ "__json_check__" := PyFunction "TwoTables.__json_check__" ]};
     is_tuple_subclass := true;
     _field_types := Some [("a", TyClass "int"); ("b", TyClass "str"); ("c", TyClass "str")];
     _fields := Some ["a"; "b"; "c"];
     _fields_defaults := Some (list_to_map [("b", PyStr "old"); ("c", PyStr "kept")]);
     _field_defaults := Some (list_to_map [("b", PyStr "new")]);
     origin_is_tuple := false;
     __args__ := [] |}.

(** A context with rules for [int] and [str] only, whose fallback for
    anything else is [None]; forward references resolve to the class of
    that name. *)
Definition sample : Collaborators :=
  {| resolve := fun declared _ =>
       match declared with
       | TyFwdRef name => TyClass name
       | _ => declared
       end;
     lookup := fun _ typ _ =>
       match typ with
       | TyClass "int" => PyFunction "int"
       | TyClass "str" => PyFunction "str"
       | _ => PyNone
       end |}.

(** ** Notions the statements below are phrased in *)

(** [attrs_classes] with the hook names it has by default. *)
Definition attrs_rule : Rule :=
  AttrsClasses "__json_pre_decode__" "__json_post_encode__" "__json_check__".

(** The native check is the shallow one: [partial(check_isinst, typ=typ)],
    built without asking any collaborator about the fields or elements. *)
Definition shallow_native_check (c : Collaborators) (rule : Rule) (typ : PyType)
  : Prop :=
  run c (apply_rule rule INSP_PY typ) = Partial_check_isinst typ
  ∧ trace c (apply_rule rule INSP_PY typ) = [].

(** The type a rule hands to [ctx.lookup] for a declared type. *)
Definition handed_type (c : Collaborators) (rule : Rule) (typ : PyType)
    (declared : TypeRef) : TypeRef :=
  match rule with
  | Tuples => declared
  | _ => resolve c declared typ
  end.

(** The [accept_missing] argument a rule passes to [ctx.lookup]. *)
Definition passed_flag (rule : Rule) : option bool :=
  match rule with
  | Tuples => None
  | _ => Some true
  end.

(** Every [ctx.lookup] call of the trace passes [accept_missing=True]. *)
Definition accepting_missing (events : list Event) : Prop :=
  Forall (fun call => call.2 = Some true) (lookups events).

(** Every [ctx.lookup] call of the trace comes right after a call of the
    resolver with the given owner, and is handed the resolver's answer. *)
Fixpoint resolved_before_lookup (c : Collaborators) (owner : PyType)
    (events : list Event) : bool :=
  match events with
  | [] => true
  | Resolved declared typ :: LookedUp _ handed _ :: rest =>
      bool_decide (typ = owner)
      && bool_decide (handed = resolve c declared typ)
      && resolved_before_lookup c owner rest
  | _ => false
  end.

(** The default an [inner_map] entry carries for the encoder, and the
    required flag it carries for the JSON check and the pattern. *)
Definition recorded_default (tup : Tup) : option Value :=
  match tup_extra tup with
  | Default v => Some v
  | _ => None
  end.

Definition recorded_required (tup : Tup) : option bool :=
  match tup_extra tup with
  | Required req => Some req
  | _ => None
  end.

(** The [inner_map] a record or named-tuple artifact is bound to. *)
Definition artifact_inner_map (artifact : PyObj) : list Tup :=
  match artifact with
  | Partial_convert_dict_to_attrs _ inner_map _
  | Partial_convert_attrs_to_dict _ inner_map
  | Partial_check_dict inner_map _ => inner_map
  | _ => []
  end.

(** The pattern entries of an object pattern. *)
Definition artifact_entries (artifact : PyObj) : list (StringPattern * Value) :=
  match artifact with
  | Object_exact entries => entries
  | _ => []
  end.

(** The default [named_tuples] takes for a field name: [_field_defaults]
    first, then [_fields_defaults], then [SENTINEL]. *)
Definition declared_default (typ : PyType) (name : string) : Value :=
  match default ∅ (_field_defaults typ) !! name with
  | Some v => v
  | None => default SENTINEL (default ∅ (_fields_defaults typ) !! name)
  end.

(** ** The hooks of tests/types_attrs_noann.py *)

(** JSON-like values, as the hooks receive them. *)
#[warnings="-register-all"]
Inductive JSON : Type :=
| JNone
| JBool (b : bool)
| JInt (z : Z)
| JStr (s : string)
| JList (items : list JSON)
| JDict (entries : gmap string JSON).

(** What a hook can raise. *)
Inductive PyExc : Type :=
| IndexError
| AttributeError.

Module Hooks.

(** [__json_pre_decode__(cls, value)]: a list is turned into the dict of
    its first two items; [value[0]] or [value[1]] raises IndexError on a
    shorter list. *)
Definition __json_pre_decode__ (value : JSON) : PyExc + JSON :=
  match value with
  | JList items =>
      match items !! 0%nat with
      | None => inl IndexError
      | Some a =>
          match items !! 1%nat with
          | None => inl IndexError
          | Some b => inr (JDict {[ "a" := a; "b" := b ]})
          end
      end
  | _ => inr value
  end.

(** [__json_check__(cls, value)]: [value.get("_type_") == "Hook"]; only a
    dict has [get]. *)
Definition __json_check__ (value : JSON) : PyExc + bool :=
  match value with
  | JDict entries =>
      inr match entries !! "_type_" with
          | Some (JStr s) => String.eqb s "Hook"
          | _ => false
          end
  | _ => inl AttributeError
  end.

(** [__json_post_encode__(cls, value)]: [dict(value, _type_="Hook")], on the
    dict the encoder built. *)
Definition __json_post_encode__ (value : gmap string JSON) : JSON :=
  JDict (<["_type_" := JStr "Hook"]> value).

End Hooks.

(** * Properties *)

(** ** Running a tree: results and traces *)

Section Running.
Context (c : Collaborators).

Lemma run_bind {A B : Type} (m : Prog A) (f : A -> Prog B) :
  run c (m ≫= f) = run c (f (run c m)).
Proof.
  induction m as [a | d o k IH | v t am k IH]; simpl; auto.
Qed.

Lemma trace_bind {A B : Type} (m : Prog A) (f : A -> Prog B) :
  trace c (m ≫= f) = trace c m ++ trace c (f (run c m)).
Proof.
  induction m as [a | d o k IH | v t am k IH]; simpl; auto.
  - f_equal. apply IH.
  - f_equal. apply IH.
Qed.

Lemma run_for_each {A B : Type} (xs : list A) (body : A -> Prog B) :
  run c (for_each xs body) = (fun x => run c (body x)) <$> xs.
Proof.
  induction xs as [| x rest IH]; simpl; [reflexivity |].
  rewrite run_bind, run_bind. simpl. by rewrite IH.
Qed.

Lemma trace_for_each {A B : Type} (xs : list A) (body : A -> Prog B) :
  trace c (for_each xs body) = xs ≫= (fun x => trace c (body x)).
Proof.
  induction xs as [| x rest IH]; simpl; [reflexivity |].
  rewrite trace_bind, trace_bind. simpl. by rewrite IH, app_nil_r.
Qed.

Lemma run_attrs_inner_map verb typ fields :
  run c (attrs_inner_map verb typ fields)
  = attrs_entry c verb typ <$> init_fields fields.
Proof.
  unfold init_fields.
  induction fields as [| field rest IH]; simpl; [reflexivity |].
  destruct (field_init field) eqn:Hinit.
  - rewrite filter_cons_True by done.
    simpl. rewrite run_bind. simpl. by rewrite IH.
  - rewrite filter_cons_False by (rewrite Hinit; done). apply IH.
Qed.

Lemma trace_attrs_inner_map verb typ fields :
  trace c (attrs_inner_map verb typ fields)
  = init_fields fields ≫= (fun f => field_events c verb typ (field_type f)).
Proof.
  unfold init_fields.
  induction fields as [| field rest IH]; simpl; [reflexivity |].
  destruct (field_init field) eqn:Hinit.
  - rewrite filter_cons_True by done.
    simpl. rewrite trace_bind. simpl. by rewrite IH, app_nil_r.
  - rewrite filter_cons_False by (rewrite Hinit; done). apply IH.
Qed.

Lemma run_named_tuple_tup verb typ item :
  run c (named_tuple_tup verb typ (named_tuple_defaults typ) item)
  = named_tuple_entry c verb typ item.
Proof. by destruct item. Qed.

Lemma trace_named_tuple_tup verb typ defaults item :
  trace c (named_tuple_tup verb typ defaults item) = field_events c verb typ item.2.
Proof. by destruct item. Qed.

Lemma run_named_tuple_inner_map verb typ fields :
  run c (for_each fields (named_tuple_tup verb typ (named_tuple_defaults typ)))
  = named_tuple_entry c verb typ <$> fields.
Proof.
  rewrite run_for_each. apply list_fmap_ext. intros _ item _.
  apply run_named_tuple_tup.
Qed.

Lemma trace_named_tuple_inner_map verb typ defaults fields :
  trace c (for_each fields (named_tuple_tup verb typ defaults))
  = fields ≫= (fun item => field_events c verb typ item.2).
Proof.
  rewrite trace_for_each. induction fields as [| item rest IH]; [done |].
  by rewrite !bind_cons, trace_named_tuple_tup, IH.
Qed.

Lemma run_tuples_inner verb args :
  run c (for_each args (fun arg => ctx_lookup verb arg None))
  = (fun arg => lookup c verb arg None) <$> args.
Proof. by rewrite run_for_each. Qed.

Lemma trace_tuples_inner verb args :
  trace c (for_each args (fun arg => ctx_lookup verb arg None))
  = (fun arg => LookedUp verb arg None) <$> args.
Proof.
  rewrite trace_for_each. induction args as [| arg rest IH]; [done |].
  by rewrite bind_cons, fmap_cons, IH.
Qed.

End Running.

(** ** Applicability *)

Lemma attrs_fields_shape typ pre_hook post_hook check :
  exposes_shape (AttrsClasses pre_hook post_hook check) typ = true
  ↔ is_Some (attrs_fields typ).
Proof.
  unfold exposes_shape, attrs_fields.
  destruct (__attrs_attrs__ typ), (__dataclass_fields__ typ); simpl;
    split; intros H; try done; try by eexists.
Qed.

Lemma named_tuple_fields_shape typ :
  exposes_shape NamedTuples typ = true
  ↔ is_tuple_subclass typ = true ∧ is_Some (named_tuple_fields typ).
Proof.
  unfold exposes_shape, named_tuple_fields.
  destruct (is_tuple_subclass typ), (_field_types typ), (_fields typ); simpl;
    split; intros H; try done; try (split; [done | by eexists]);
    by destruct H as [? []].
Qed.

Lemma bind_unit_fmap {A B : Type} (f : A → B) (xs : list A) :
  xs ≫= (fun x => [f x]) = f <$> xs.
Proof.
  induction xs as [| x rest IH]; [done |].
  by rewrite bind_cons, fmap_cons, IH.
Qed.

(** ** The calls each rule makes *)

Section Calls.
Context (c : Collaborators).

Lemma trace_attrs_classes verb typ fields pre_hook post_hook check :
  attrs_fields typ = Some fields →
  needs_inner (AttrsClasses pre_hook post_hook check) verb = true →
  trace c (attrs_classes verb typ pre_hook post_hook check)
  = init_fields fields ≫= (fun f => field_events c verb typ (field_type f)).
Proof.
  intros Hfields Hverb. unfold attrs_classes. rewrite Hfields.
  destruct verb; try discriminate Hverb; simpl;
    rewrite trace_bind, trace_attrs_inner_map;
    try (by rewrite app_nil_r).
  destruct (truthy _); simpl; by rewrite app_nil_r.
Qed.

Lemma trace_named_tuples verb typ fields :
  is_tuple_subclass typ = true →
  named_tuple_fields typ = Some fields →
  needs_inner NamedTuples verb = true →
  trace c (named_tuples verb typ)
  = fields ≫= (fun item => field_events c verb typ item.2).
Proof.
  intros Hsub Hfields Hverb. unfold named_tuples. rewrite Hsub, Hfields.
  destruct verb; try discriminate Hverb; simpl;
    rewrite trace_bind, trace_named_tuple_inner_map; by rewrite app_nil_r.
Qed.

Lemma trace_tuples verb typ :
  origin_is_tuple typ = true →
  TyEllipsis ∉ __args__ typ →
  supported verb = true →
  trace c (tuples verb typ) = (fun arg => LookedUp verb arg None) <$> __args__ typ.
Proof.
  intros Horigin Hargs Hverb. unfold tuples. rewrite Horigin.
  rewrite bool_decide_eq_false_2 by done.
  destruct verb; try discriminate Hverb; simpl;
    rewrite trace_bind, trace_tuples_inner; by rewrite app_nil_r.
Qed.

Lemma trace_apply_rule rule verb typ :
  matched rule typ = true →
  needs_inner rule verb = true →
  trace c (apply_rule rule verb typ)
  = declared_types rule typ ≫= rule_events c rule verb typ.
Proof.
  intros Hmatched Hverb. apply andb_true_iff in Hmatched as [Hshape Hargs].
  destruct rule as [pre_hook post_hook check | |]; simpl.
  - apply attrs_fields_shape in Hshape as [fields Hfields].
    rewrite (trace_attrs_classes _ _ fields) by done.
    rewrite Hfields. simpl. by rewrite list_fmap_bind.
  - apply named_tuple_fields_shape in Hshape as [Hsub [fields Hfields]].
    rewrite (trace_named_tuples _ _ fields) by done.
    rewrite Hfields. simpl. by rewrite list_fmap_bind.
  - apply bool_decide_eq_true in Hargs.
    apply andb_true_iff in Hverb as [Hverb _].
    rewrite trace_tuples by done. symmetry. apply bind_unit_fmap.
Qed.

End Calls.

(** ** The object each rule returns *)

Section Artifacts.
Context (c : Collaborators).

(** Unfold [attrs_classes] on a type whose fields are known and run the loop. *)
Ltac run_attrs_loop Hfields :=
  unfold attrs_classes; rewrite Hfields; simpl;
  rewrite run_bind, run_attrs_inner_map.

Lemma run_attrs_classes_decode typ fields pre_hook post_hook check :
  attrs_fields typ = Some fields →
  run c (attrs_classes JSON2PY typ pre_hook post_hook check)
  = Partial_convert_dict_to_attrs (getattr typ pre_hook identity)
      (attrs_entry c JSON2PY typ <$> init_fields fields) typ.
Proof.
  intros Hfields. by run_attrs_loop Hfields.
Qed.

Lemma run_attrs_classes_encode typ fields pre_hook post_hook check :
  attrs_fields typ = Some fields →
  run c (attrs_classes PY2JSON typ pre_hook post_hook check)
  = Partial_convert_attrs_to_dict
      (if hasattr typ post_hook then Some post_hook else None)
      (attrs_entry c PY2JSON typ <$> init_fields fields).
Proof.
  intros Hfields. by run_attrs_loop Hfields.
Qed.

Lemma run_attrs_classes_check typ fields pre_hook post_hook check :
  attrs_fields typ = Some fields →
  run c (attrs_classes INSP_JSON typ pre_hook post_hook check)
  = if truthy (getattr typ check PyNone) then Obj (getattr typ check PyNone)
    else Partial_check_dict (attrs_entry c INSP_JSON typ <$> init_fields fields)
           (getattr typ pre_hook identity).
Proof.
  intros Hfields. run_attrs_loop Hfields. by destruct (truthy _).
Qed.

Lemma run_attrs_classes_pattern typ fields pre_hook post_hook check :
  attrs_fields typ = Some fields →
  run c (attrs_classes PATTERN typ pre_hook post_hook check)
  = Object_exact
      (attrs_pattern_entries (attrs_entry c PATTERN typ <$> init_fields fields)).
Proof.
  intros Hfields. by run_attrs_loop Hfields.
Qed.

Lemma run_named_tuples verb typ fields :
  is_tuple_subclass typ = true →
  named_tuple_fields typ = Some fields →
  needs_inner NamedTuples verb = true →
  run c (named_tuples verb typ)
  = named_tuple_artifact verb typ (named_tuple_entry c verb typ <$> fields).
Proof.
  intros Hsub Hfields Hverb. unfold named_tuples. rewrite Hsub, Hfields.
  destruct verb; try discriminate Hverb; simpl;
    by rewrite run_bind, run_named_tuple_inner_map.
Qed.

Lemma run_tuples verb typ :
  origin_is_tuple typ = true →
  TyEllipsis ∉ __args__ typ →
  supported verb = true →
  run c (tuples verb typ)
  = tuple_artifact verb ((fun arg => lookup c verb arg None) <$> __args__ typ).
Proof.
  intros Horigin Hargs Hverb. unfold tuples. rewrite Horigin.
  rewrite bool_decide_eq_false_2 by done.
  destruct verb; try discriminate Hverb; simpl;
    by rewrite run_bind, run_tuples_inner.
Qed.

End Artifacts.

(** ** Declining *)

(** C6.  A rule returns [None], without a single call to a collaborator
    (so with nothing that could raise), whenever the verb is not one of the
    five, or the type lacks the metadata the rule reads (neither
    [__attrs_attrs__] nor [__dataclass_fields__]; not a tuple subclass, or
    neither [_field_types] nor [_fields]; no tuple origin), or, for
    [tuples], [Ellipsis] is among the arguments, whatever the verb. *)
Theorem rule_declines (rule : Rule) (verb : Verb) (typ : PyType) :
  supported verb = false
  ∨ exposes_shape rule typ = false
  ∨ (rule = Tuples ∧ TyEllipsis ∈ __args__ typ) →
  apply_rule rule verb typ = Ret (Obj PyNone).
Proof.
  intros [Hverb | [Hshape | [-> Hargs]]].
  - destruct rule; simpl; unfold attrs_classes, named_tuples, tuples;
      by rewrite Hverb.
  - destruct rule as [pre_hook post_hook check | |]; simpl.
    + unfold attrs_classes.
      destruct (attrs_fields typ) as [fields |] eqn:Hfields.
      * assert (exposes_shape (AttrsClasses pre_hook post_hook check) typ = true)
          as Hyes by (apply attrs_fields_shape; by eexists).
        congruence.
      * by destruct (supported verb).
    + unfold named_tuples.
      destruct (is_tuple_subclass typ) eqn:Hsub;
        [| by rewrite orb_true_r].
      destruct (named_tuple_fields typ) as [fields |] eqn:Hfields.
      * assert (exposes_shape NamedTuples typ = true)
          as Hyes by (apply named_tuple_fields_shape; split; [done | by eexists]).
        congruence.
      * by destruct (supported verb).
    + simpl in Hshape. unfold tuples. rewrite Hshape. by rewrite orb_true_r.
  - simpl. unfold tuples.
    destruct (negb (supported verb) || negb (origin_is_tuple typ)); [done |].
    by rewrite bool_decide_eq_true_2.
Qed.

Lemma rule_declines_witness :
  apply_rule attrs_rule (OtherVerb "show") Flat1 = Ret (Obj PyNone)
  ∧ apply_rule NamedTuples JSON2PY Flat1 = Ret (Obj PyNone)
  ∧ apply_rule Tuples PATTERN (Tuple [TyClass "int"; TyEllipsis]) = Ret (Obj PyNone).
Proof.
  split; [| split].
  - apply rule_declines. left. reflexivity.
  - apply rule_declines. right. left. reflexivity.
  - apply rule_declines. right. right. split; [reflexivity |].
    apply list_elem_of_In. simpl. auto.
Defined.

(** ** The native check *)

(** C1, as stated, fails on [tuples]: for [Tuple[int, str]] the native
    check is [check_tuple_as_list] over the element checks, each asked from
    the context. *)
Lemma tuples_native_check_is_deep :
  matched Tuples (Tuple [TyClass "int"; TyClass "str"]) = true
  ∧ run sample (tuples INSP_PY (Tuple [TyClass "int"; TyClass "str"]))
    = Partial_check_tuple_as_list [PyFunction "int"; PyFunction "str"] py_tuple
  ∧ trace sample (tuples INSP_PY (Tuple [TyClass "int"; TyClass "str"]))
    = [LookedUp INSP_PY (TyClass "int") None; LookedUp INSP_PY (TyClass "str") None]
  ∧ ¬ shallow_native_check sample Tuples (Tuple [TyClass "int"; TyClass "str"]).
Proof.
  split; [reflexivity |]. split; [reflexivity |]. split; [reflexivity |].
  intros [Hrun _]. discriminate Hrun.
Qed.

(** C1, amended.  For a type matched by [attrs_classes] or [named_tuples]
    the native check is [partial(check_isinst, typ=typ)] and no collaborator
    is asked.  For a type matched by [tuples] it is
    [partial(check_tuple_as_list, inner=inner, con=tuple)], where [inner]
    holds what [ctx.lookup] gave for each argument, in order. *)
Theorem native_check_artifact (c : Collaborators) (rule : Rule) (typ : PyType) :
  matched rule typ = true →
  match rule with
  | Tuples =>
      run c (apply_rule rule INSP_PY typ)
      = Partial_check_tuple_as_list
          ((fun arg => lookup c INSP_PY arg None) <$> __args__ typ) py_tuple
      ∧ trace c (apply_rule rule INSP_PY typ)
        = (fun arg => LookedUp INSP_PY arg None) <$> __args__ typ
  | _ => shallow_native_check c rule typ
  end.
Proof.
  intros Hmatched. apply andb_true_iff in Hmatched as [Hshape Hargs].
  destruct rule as [pre_hook post_hook check | |].
  - apply attrs_fields_shape in Hshape as [fields Hfields].
    unfold shallow_native_check. simpl. unfold attrs_classes.
    by rewrite Hfields.
  - apply named_tuple_fields_shape in Hshape as [Hsub [fields Hfields]].
    unfold shallow_native_check. simpl. unfold named_tuples.
    by rewrite Hsub, Hfields.
  - apply bool_decide_eq_true in Hargs. simpl in *.
    by rewrite run_tuples, trace_tuples.
Qed.

Lemma native_check_artifact_witness :
  shallow_native_check sample attrs_rule Flat1
  ∧ shallow_native_check sample NamedTuples Named1
  ∧ run sample (tuples INSP_PY (Tuple [TyClass "int"; TyFwdRef "Node"]))
    = Partial_check_tuple_as_list [PyFunction "int"; PyNone] py_tuple.
Proof.
  split; [| split].
  - apply (native_check_artifact sample attrs_rule Flat1). reflexivity.
  - apply (native_check_artifact sample NamedTuples Named1). reflexivity.
  - apply (native_check_artifact sample Tuples (Tuple [TyClass "int"; TyFwdRef "Node"])).
    reflexivity.
Defined.

(** ** The calls to the context and to the resolver *)

Lemma lookups_app (events1 events2 : list Event) :
  lookups (events1 ++ events2) = lookups events1 ++ lookups events2.
Proof. apply omap_app. Qed.

Lemma lookups_bind {A : Type} (xs : list A) (f : A → list Event) :
  lookups (xs ≫= f) = xs ≫= (fun x => lookups (f x)).
Proof.
  induction xs as [| x rest IH]; [done |].
  by rewrite !bind_cons, lookups_app, IH.
Qed.

Lemma resolved_before_lookup_fields c verb typ (declared : list TypeRef) :
  resolved_before_lookup c typ (declared ≫= field_events c verb typ) = true.
Proof.
  induction declared as [| d rest IH]; [done |].
  rewrite bind_cons. simpl. rewrite IH.
  by rewrite !bool_decide_eq_true_2.
Qed.

(** C3, as stated, fails on [tuples]: its calls to [ctx.lookup] do not pass
    [accept_missing] at all. *)
Lemma tuples_lookup_without_accept_missing :
  matched Tuples (Tuple [TyClass "int"; TyClass "str"]) = true
  ∧ needs_inner Tuples PATTERN = true
  ∧ lookups (trace sample (apply_rule Tuples PATTERN (Tuple [TyClass "int"; TyClass "str"])))
    = [(PATTERN, TyClass "int", None); (PATTERN, TyClass "str", None)]
  ∧ ¬ accepting_missing
        (trace sample (apply_rule Tuples PATTERN (Tuple [TyClass "int"; TyClass "str"]))).
Proof.
  split; [reflexivity |]. split; [reflexivity |]. split; [reflexivity |].
  intros Hall. apply Forall_cons in Hall as [Hflag _]. discriminate Hflag.
Qed.

(** C3, amended.  For a matched type and a verb the rule builds per-field
    artifacts for, the rule calls [ctx.lookup] once per declared type it
    goes through (the init fields, the named-tuple fields, the tuple
    arguments), in order and with the verb it was given.  [attrs_classes]
    and [named_tuples] pass [accept_missing=True]; [tuples] calls
    [ctx.lookup(verb=verb, typ=arg)] and leaves the flag to the context. *)
Theorem lookups_of_rule (c : Collaborators) (rule : Rule) (verb : Verb)
    (typ : PyType) :
  matched rule typ = true →
  needs_inner rule verb = true →
  lookups (trace c (apply_rule rule verb typ))
  = (fun declared => (verb, handed_type c rule typ declared, passed_flag rule))
      <$> declared_types rule typ
  ∧ (rule ≠ Tuples → accepting_missing (trace c (apply_rule rule verb typ))).
Proof.
  intros Hmatched Hverb.
  assert (lookups (trace c (apply_rule rule verb typ))
          = (fun declared => (verb, handed_type c rule typ declared, passed_flag rule))
              <$> declared_types rule typ) as Hcalls.
  { rewrite trace_apply_rule by done. rewrite lookups_bind.
    destruct rule; simpl; apply bind_unit_fmap. }
  split; [done |].
  intros Hrule. unfold accepting_missing. rewrite Hcalls.
  apply Forall_fmap, Forall_true. intros declared. simpl.
  by destruct rule.
Qed.

Lemma lookups_of_rule_witness :
  lookups (trace sample (apply_rule NamedTuples PY2JSON Named2))
  = [(PY2JSON, TyNone, Some true); (PY2JSON, TyNone, Some true)]
  ∧ accepting_missing (trace sample (apply_rule attrs_rule INSP_JSON Flat1)).
Proof.
  split.
  - apply (lookups_of_rule sample NamedTuples PY2JSON Named2); reflexivity.
  - apply (lookups_of_rule sample attrs_rule INSP_JSON Flat1);
      [reflexivity | reflexivity | discriminate].
Defined.

(** C4, as stated, fails on [tuples]: the arguments go to [ctx.lookup] as
    they are declared, the resolver is never called, and a forward
    reference reaches the context unresolved. *)
Lemma tuples_skip_forward_reference_resolver :
  matched Tuples (Tuple [TyFwdRef "Node"; TyClass "int"]) = true
  ∧ resolve sample (TyFwdRef "Node") (Tuple [TyFwdRef "Node"; TyClass "int"])
    = TyClass "Node"
  ∧ trace sample (apply_rule Tuples JSON2PY (Tuple [TyFwdRef "Node"; TyClass "int"]))
    = [LookedUp JSON2PY (TyFwdRef "Node") None; LookedUp JSON2PY (TyClass "int") None]
  ∧ resolved_before_lookup sample (Tuple [TyFwdRef "Node"; TyClass "int"])
      (trace sample (apply_rule Tuples JSON2PY (Tuple [TyFwdRef "Node"; TyClass "int"])))
    = false.
Proof. repeat split; reflexivity. Qed.

(** C4, amended.  [attrs_classes] and [named_tuples] pass every declared
    field type they go through to [resolve_fwd_ref] with the composite type
    as owner, and hand the resolver's answer to [ctx.lookup]; these pairs of
    calls, in field order, are all the calls they make.  [tuples] hands each
    argument to [ctx.lookup] as declared and never calls the resolver. *)
Theorem calls_of_rule (c : Collaborators) (rule : Rule) (verb : Verb)
    (typ : PyType) :
  matched rule typ = true →
  needs_inner rule verb = true →
  trace c (apply_rule rule verb typ)
  = declared_types rule typ ≫= rule_events c rule verb typ
  ∧ (rule ≠ Tuples →
     resolved_before_lookup c typ (trace c (apply_rule rule verb typ)) = true).
Proof.
  intros Hmatched Hverb.
  pose proof (trace_apply_rule c rule verb typ Hmatched Hverb) as Htrace.
  split; [done |].
  intros Hrule. rewrite Htrace.
  destruct rule; [| | done]; apply resolved_before_lookup_fields.
Qed.

Lemma calls_of_rule_witness :
  trace sample (apply_rule attrs_rule JSON2PY Flat1)
  = [Resolved (TyClass "int") Flat1; LookedUp JSON2PY (TyClass "int") (Some true);
     Resolved (TyClass "str") Flat1; LookedUp JSON2PY (TyClass "str") (Some true)]
  ∧ resolved_before_lookup sample Named2 (trace sample (apply_rule NamedTuples PATTERN Named2))
    = true.
Proof.
  split.
  - apply (calls_of_rule sample attrs_rule JSON2PY Flat1); reflexivity.
  - apply (calls_of_rule sample NamedTuples PATTERN Named2);
      [reflexivity | reflexivity | discriminate].
Defined.

(** ** Hooks of a record-like type *)

(** A member that is there but falsy ([__json_check__ = None], say) counts
    as no override: the generated check is returned. *)
Lemma json_check_falsy_member_ignored (c : Collaborators) (typ : PyType)
    (fields : list Field) (pre_hook post_hook check : string) (member : Value) :
  attrs_fields typ = Some fields →
  members typ !! check = Some member →
  truthy member = false →
  run c (attrs_classes INSP_JSON typ pre_hook post_hook check)
  = Partial_check_dict (attrs_entry c INSP_JSON typ <$> init_fields fields)
      (getattr typ pre_hook identity).
Proof.
  intros Hfields Hmember Hfalsy.
  rewrite (run_attrs_classes_check c typ fields) by done.
  unfold getattr at 1. rewrite Hmember. simpl. by rewrite Hfalsy.
Qed.

(** C2.  When a record-like type defines the check hook (the member is
    there and, as every function or method object, truthy), the object
    [attrs_classes] returns for [INSP_JSON] is that very member: no
    [check_dict] is built, the pre-decode hook is not part of the answer,
    and neither the fields nor their required flags have any say. *)
Theorem json_check_hook_returned (c : Collaborators) (typ : PyType)
    (pre_hook post_hook check : string) (hook : Value) :
  matched (AttrsClasses pre_hook post_hook check) typ = true →
  members typ !! check = Some hook →
  truthy hook = true →
  run c (attrs_classes INSP_JSON typ pre_hook post_hook check) = Obj hook.
Proof.
  intros Hmatched Hhook Htruthy.
  apply andb_true_iff in Hmatched as [Hshape _].
  apply attrs_fields_shape in Hshape as [fields Hfields].
  rewrite (run_attrs_classes_check c typ fields) by done.
  unfold getattr. rewrite Hhook. simpl. by rewrite Htruthy.
Qed.

Lemma json_check_hook_returned_witness :
  run sample (attrs_classes INSP_JSON Hook1
                "__json_pre_decode__" "__json_post_encode__" "__json_check__")
  = Obj (PyFunction "Hooks.__json_check__").
Proof.
  apply json_check_hook_returned; reflexivity.
Defined.



(** ** Only init fields take part *)

Lemma attrs_pattern_entries_names (inner_map : list Tup) :
  artifact_field_names (Object_exact (attrs_pattern_entries inner_map))
  = tup_name <$> filter (fun tup => tup_req tup = true) inner_map.
Proof.
  unfold attrs_pattern_entries. simpl.
  rewrite <- list_fmap_compose. by apply list_fmap_ext.
Qed.

Lemma attrs_entry_names (c : Collaborators) (verb : Verb) (typ : PyType)
    (fields : list Field) :
  tup_name <$> (attrs_entry c verb typ <$> fields) = field_name <$> fields.
Proof. rewrite <- list_fmap_compose. by apply list_fmap_ext. Qed.

Lemma attrs_required_entries (c : Collaborators) (typ : PyType) (fields : list Field) :
  filter (fun tup => tup_req tup = true) (attrs_entry c PATTERN typ <$> fields)
  = attrs_entry c PATTERN typ <$> filter (fun f => field_required f = true) fields.
Proof.
  induction fields as [| field rest IH]; [done |].
  rewrite fmap_cons.
  destruct (field_required field) eqn:Hreq.
  - rewrite !filter_cons_True by done. by rewrite fmap_cons, IH.
  - rewrite !filter_cons_False; [done | by rewrite Hreq |].
    unfold tup_req. simpl. by rewrite Hreq.
Qed.

(** C8.  Every artifact [attrs_classes] builds over a field list is built
    over the init fields only, in declared order: the decoder, the encoder
    and the generated JSON check over all of them, the pattern over those of
    them that are required.  So whatever the verb, a name in an artifact's
    field list is the name of a field whose [init] is true. *)
Theorem only_init_fields (c : Collaborators) (typ : PyType) (fields : list Field)
    (pre_hook post_hook check : string) :
  attrs_fields typ = Some fields →
  artifact_field_names (run c (attrs_classes JSON2PY typ pre_hook post_hook check))
  = field_name <$> init_fields fields
  ∧ artifact_field_names (run c (attrs_classes PY2JSON typ pre_hook post_hook check))
    = field_name <$> init_fields fields
  ∧ (truthy (getattr typ check PyNone) = false →
     artifact_field_names (run c (attrs_classes INSP_JSON typ pre_hook post_hook check))
     = field_name <$> init_fields fields)
  ∧ artifact_field_names (run c (attrs_classes PATTERN typ pre_hook post_hook check))
    = field_name <$> filter (fun f => field_required f = true) (init_fields fields)
  ∧ ∀ verb name,
      name ∈ artifact_field_names (run c (attrs_classes verb typ pre_hook post_hook check)) →
      ∃ field, field ∈ fields ∧ field_name field = name ∧ field_init field = true.
Proof.
  intros Hfields.
  assert (∀ name, name ∈ field_name <$> init_fields fields →
          ∃ field, field ∈ fields ∧ field_name field = name ∧ field_init field = true)
    as Hinit.
  { intros name Hname. apply list_elem_of_fmap in Hname as (field & -> & Hin).
    apply list_elem_of_filter in Hin as [Hinit Hin]. by exists field. }
  assert (artifact_field_names
            (run c (attrs_classes PATTERN typ pre_hook post_hook check))
          = field_name <$> filter (fun f => field_required f = true) (init_fields fields))
    as Hpattern.
  { rewrite (run_attrs_classes_pattern c typ fields) by done.
    by rewrite attrs_pattern_entries_names, attrs_required_entries, attrs_entry_names. }
  split; [| split; [| split; [| split]]].
  - rewrite (run_attrs_classes_decode c typ fields) by done. simpl.
    apply attrs_entry_names.
  - rewrite (run_attrs_classes_encode c typ fields) by done. simpl.
    apply attrs_entry_names.
  - intros Hcheck. rewrite (run_attrs_classes_check c typ fields) by done.
    rewrite Hcheck. simpl. apply attrs_entry_names.
  - done.
  - intros verb name. destruct verb.
    + rewrite (run_attrs_classes_decode c typ fields) by done. simpl.
      rewrite attrs_entry_names. apply Hinit.
    + rewrite (run_attrs_classes_encode c typ fields) by done. simpl.
      rewrite attrs_entry_names. apply Hinit.
    + rewrite (run_attrs_classes_check c typ fields) by done.
      destruct (truthy _); simpl.
      * intros Hname. by apply elem_of_nil in Hname.
      * rewrite attrs_entry_names. apply Hinit.
    + unfold attrs_classes. rewrite Hfields. simpl.
      intros Hname. by apply elem_of_nil in Hname.
    + rewrite Hpattern. intros Hname. apply Hinit.
      apply list_elem_of_fmap in Hname as (field & -> & Hin).
      apply list_elem_of_filter in Hin as [_ Hin].
      apply list_elem_of_fmap. by exists field.
    + unfold attrs_classes. simpl.
      intros Hname. by apply elem_of_nil in Hname.
Qed.

Lemma only_init_fields_witness :
  artifact_field_names
    (run sample (attrs_classes JSON2PY Computed
                   "__json_pre_decode__" "__json_post_encode__" "__json_check__"))
  = ["a"].
Proof.
  exact (proj1 (only_init_fields sample Computed
                  [attr_ib "a" NOTHING (TyClass "int");
                   {| field_name := "total";
                      field_type := TyClass "int";
                      field_default := PyInt 0;
                      field_init := false;
                      field_required := false |}]
                  "__json_pre_decode__" "__json_post_encode__" "__json_check__"
                  eq_refl)).
Defined.

(** ** Named tuples *)

Lemma named_tuple_entry_names (c : Collaborators) (verb : Verb) (typ : PyType)
    (fields : list (string * TypeRef)) :
  tup_name <$> (named_tuple_entry c verb typ <$> fields) = fields.*1.
Proof. rewrite <- list_fmap_compose. by apply list_fmap_ext. Qed.


(** C7, as stated, fails for a named tuple that declares the [SENTINEL]
    object itself as a default: the field is then not required, yet the
    default bound into the encoder is [SENTINEL]. *)
Lemma sentinel_default_is_not_required :
  run sample (named_tuples PY2JSON Sneaky)
  = Partial_convert_attrs_to_dict None
      [ {| tup_name := "a"; tup_inner := PyNone; tup_extra := Default SENTINEL |} ]
  ∧ run sample (named_tuples INSP_JSON Sneaky)
    = Partial_check_dict
        [ {| tup_name := "a"; tup_inner := PyNone; tup_extra := Required false |} ]
        identity
  ∧ run sample (named_tuples PATTERN Sneaky) = Object_exact []
  ∧ ¬ (∀ dflt req,
         recorded_default (named_tuple_entry sample PY2JSON Sneaky ("a", TyNone))
         = Some dflt →
         recorded_required (named_tuple_entry sample INSP_JSON Sneaky ("a", TyNone))
         = Some req →
         (req = true ↔ dflt = SENTINEL)).
Proof.
  split; [reflexivity |]. split; [reflexivity |]. split; [reflexivity |].
  intros Hinvariant.
  destruct (Hinvariant SENTINEL false eq_refl eq_refl) as [_ Hconverse].
  discriminate (Hconverse eq_refl).
Qed.

(** C7, amended.  For every field of a named tuple, the encoder, the JSON
    check and the pattern are bound to the field list in declared order, the
    JSON check and the pattern record the same required flag, and a field
    recorded as required has [SENTINEL] recorded as its encoder default.
    Conversely a field whose recorded default is [SENTINEL] is required,
    unless the merged default tables themselves give [SENTINEL] for it.  So
    required and default-is-[SENTINEL] coincide for every field whose
    declared default, if it has one, is not the [SENTINEL] object. *)
Theorem named_tuple_required_and_sentinel (c : Collaborators) (typ : PyType)
    (fields : list (string * TypeRef)) :
  is_tuple_subclass typ = true →
  named_tuple_fields typ = Some fields →
  run c (named_tuples PY2JSON typ)
  = Partial_convert_attrs_to_dict None (named_tuple_entry c PY2JSON typ <$> fields)
  ∧ run c (named_tuples INSP_JSON typ)
    = Partial_check_dict (named_tuple_entry c INSP_JSON typ <$> fields) identity
  ∧ run c (named_tuples PATTERN typ)
    = Object_exact
        (named_tuple_pattern_entries (named_tuple_entry c PATTERN typ <$> fields))
  ∧ ∀ item, item ∈ fields →
      ∃ dflt req,
        recorded_default (named_tuple_entry c PY2JSON typ item) = Some dflt
        ∧ recorded_required (named_tuple_entry c INSP_JSON typ item) = Some req
        ∧ recorded_required (named_tuple_entry c PATTERN typ item) = Some req
        ∧ (req = true → dflt = SENTINEL)
        ∧ (dflt = SENTINEL →
           req = true ∨ named_tuple_defaults typ !! item.1 = Some SENTINEL)
        ∧ (named_tuple_defaults typ !! item.1 ≠ Some SENTINEL →
           (req = true ↔ dflt = SENTINEL)).
Proof.
  intros Hsub Hfields.
  rewrite !(run_named_tuples c _ typ fields) by done.
  repeat (split; [done |]).
  intros [name declared] _. unfold recorded_default, recorded_required. simpl.
  eexists _, _. repeat (split; [reflexivity |]).
  rewrite bool_decide_eq_true.
  destruct (named_tuple_defaults typ !! name) as [v |] eqn:Hdefault; simpl.
  - split; [done |]. split.
    + intros ->. by right.
    + intros Hlegit. split; [done |]. intros ->. by destruct Hlegit.
  - split; [done |]. split; [by left | done].
Qed.

Lemma named_tuple_required_and_sentinel_witness :
  run sample (named_tuples PY2JSON Named2)
  = Partial_convert_attrs_to_dict None
      [ {| tup_name := "a"; tup_inner := PyNone; tup_extra := Default SENTINEL |};
        {| tup_name := "b"; tup_inner := PyNone;
           tup_extra := Default (PyStr "default") |} ].
Proof.
  exact (proj1 (named_tuple_required_and_sentinel sample Named2
                  [("a", TyNone); ("b", TyNone)] eq_refl eq_refl)).
Defined.



(** ** Patterns *)


(** The pattern of [named_tuples]: the fields without a default in declared
    order, each with what the context gave for it, whatever that is. *)
Lemma named_tuple_pattern_entries_spec (c : Collaborators) (typ : PyType)
    (fields : list (string * TypeRef)) :
  named_tuple_pattern_entries (named_tuple_entry c PATTERN typ <$> fields)
  = (fun item => (String_exact item.1,
                  lookup c PATTERN (resolve c item.2 typ) (Some true)))
      <$> filter (fun item => named_tuple_defaults typ !! item.1 = None) fields.
Proof.
  unfold named_tuple_pattern_entries.
  induction fields as [| [name declared] rest IH]; [done |].
  rewrite fmap_cons.
  destruct (named_tuple_defaults typ !! name) as [v |] eqn:Hdefault.
  - rewrite !filter_cons_False; [apply IH | by simpl; rewrite Hdefault |].
    unfold tup_req. simpl. rewrite Hdefault.
    by rewrite bool_decide_eq_false_2.
  - rewrite !filter_cons_True; [| done |].
    + rewrite !fmap_cons. simpl. f_equal. apply IH.
    + unfold tup_req. simpl. rewrite Hdefault.
      by rewrite bool_decide_eq_true_2.
Qed.

(** C5.  Where the context has nothing for a field (here the fields carry
    no annotation and the context's fallback is [None]), [attrs_classes]
    puts [pat.Unkown] into the object pattern, but [named_tuples] puts the
    [None] it was given. *)
Theorem named_tuple_pattern_keeps_missing_inner :
  lookup sample PATTERN (resolve sample TyNone Named1) (Some true) = PyNone
  ∧ run sample (named_tuples PATTERN Named1)
    = Object_exact [(String_exact "a", PyNone); (String_exact "b", PyNone)]
  ∧ run sample (attrs_classes PATTERN Bare
                  "__json_pre_decode__" "__json_post_encode__" "__json_check__")
    = Object_exact [(String_exact "a", Unkown)].
Proof. repeat split; reflexivity. Qed.

(** * Further properties of the rules *)

(** ** A rule answers [None] only to decline *)

Lemma apply_rule_unmatched (rule : Rule) (verb : Verb) (typ : PyType) :
  supported verb = false ∨ matched rule typ = false →
  apply_rule rule verb typ = Ret (Obj PyNone).
Proof.
  intros [Hverb | Hmatched].
  - destruct rule; simpl; unfold attrs_classes, named_tuples, tuples;
      by rewrite Hverb.
  - destruct rule as [pre_hook post_hook check | |]; simpl.
    + unfold matched in Hmatched. rewrite andb_true_r in Hmatched.
      unfold attrs_classes.
      destruct (attrs_fields typ) as [fields |] eqn:Hfields;
        [| by destruct (supported verb)].
      assert (exposes_shape (AttrsClasses pre_hook post_hook check) typ = true)
        as Hyes by (apply attrs_fields_shape; by eexists).
      congruence.
    + unfold matched in Hmatched. rewrite andb_true_r in Hmatched.
      unfold named_tuples.
      destruct (is_tuple_subclass typ) eqn:Hsub; [| by rewrite orb_true_r].
      destruct (named_tuple_fields typ) as [fields |] eqn:Hfields;
        [| by destruct (supported verb)].
      assert (exposes_shape NamedTuples typ = true)
        as Hyes by (apply named_tuple_fields_shape; split; [done | by eexists]).
      congruence.
    + unfold matched in Hmatched. simpl in Hmatched. unfold tuples.
      destruct (origin_is_tuple typ); [| by rewrite orb_true_r].
      simpl in Hmatched. apply bool_decide_eq_false in Hmatched.
      destruct (negb (supported verb) || negb true); [done |].
      rewrite bool_decide_eq_true_2; [done |].
      by destruct (decide (TyEllipsis ∈ __args__ typ)).
Qed.

Lemma run_apply_rule_matched (c : Collaborators) (rule : Rule) (verb : Verb)
    (typ : PyType) :
  supported verb = true →
  matched rule typ = true →
  run c (apply_rule rule verb typ) ≠ Obj PyNone.
Proof.
  intros Hverb Hmatched. apply andb_true_iff in Hmatched as [Hshape Hargs].
  destruct rule as [pre_hook post_hook check | |]; simpl.
  - apply attrs_fields_shape in Hshape as [fields Hfields].
    destruct verb; try discriminate Hverb.
    + by rewrite (run_attrs_classes_decode c typ fields).
    + by rewrite (run_attrs_classes_encode c typ fields).
    + rewrite (run_attrs_classes_check c typ fields) by done.
      destruct (truthy _) eqn:Htruthy; [| done].
      intros Hnone. injection Hnone as Hnone. by rewrite Hnone in Htruthy.
    + unfold attrs_classes. by rewrite Hfields.
    + by rewrite (run_attrs_classes_pattern c typ fields).
  - apply named_tuple_fields_shape in Hshape as [Hsub [fields Hfields]].
    destruct (decide (verb = INSP_PY)) as [-> | Hother].
    { unfold named_tuples. by rewrite Hsub, Hfields. }
    rewrite (run_named_tuples c verb typ fields) by (by destruct verb).
    by destruct verb.
  - apply bool_decide_eq_true in Hargs. simpl in Hshape.
    rewrite run_tuples by done. by destruct verb.
Qed.

(** X1.  Whatever the collaborators, a rule returns [None] exactly when it
    declines: when the verb is not one of the five or the type is not
    matched.  For a matched type and a supported verb the answer is never
    [None], so a dispatcher cannot take a match for a refusal. *)
Theorem returns_none_iff_declines (c : Collaborators) (rule : Rule) (verb : Verb)
    (typ : PyType) :
  run c (apply_rule rule verb typ) = Obj PyNone
  ↔ supported verb = false ∨ matched rule typ = false.
Proof.
  split.
  - intros Hnone.
    destruct (supported verb) eqn:Hverb; [| by left].
    destruct (matched rule typ) eqn:Hmatched; [| by right].
    by destruct (run_apply_rule_matched c rule verb typ).
  - intros Hdeclines. by rewrite apply_rule_unmatched.
Qed.

(** ** The calls do not depend on what the context answers *)

(** X2.  Which calls a rule makes, and in which order, is fixed by the verb,
    the type and the resolver alone: two runs whose resolvers agree make the
    same calls whatever their contexts hand back, so a rule never looks
    into an artifact it was given in order to decide what to ask next. *)
Theorem calls_independent_of_answers (c1 c2 : Collaborators) (rule : Rule)
    (verb : Verb) (typ : PyType) :
  (∀ declared owner, resolve c1 declared owner = resolve c2 declared owner) →
  trace c1 (apply_rule rule verb typ) = trace c2 (apply_rule rule verb typ).
Proof.
  intros Hresolve.
  destruct (supported verb) eqn:Hverb;
    [| by rewrite apply_rule_unmatched by (by left)].
  destruct (matched rule typ) eqn:Hmatched;
    [| by rewrite apply_rule_unmatched by (by right)].
  destruct (needs_inner rule verb) eqn:Hneeds.
  - rewrite !trace_apply_rule by done.
    apply list_bind_ext; [| done]. intros declared.
    destruct rule; simpl; unfold field_events; by rewrite ?Hresolve.
  - apply andb_true_iff in Hmatched as [Hshape _].
    unfold needs_inner in Hneeds. rewrite Hverb in Hneeds.
    destruct rule as [pre_hook post_hook check | |]; destruct verb;
      try discriminate Hneeds; simpl.
    + apply attrs_fields_shape in Hshape as [fields Hfields].
      unfold attrs_classes. by rewrite Hfields.
    + apply named_tuple_fields_shape in Hshape as [Hsub [fields Hfields]].
      unfold named_tuples. by rewrite Hsub, Hfields.
Qed.

Lemma calls_independent_of_answers_witness :
  trace sample (apply_rule attrs_rule PATTERN Flat1)
  = trace {| resolve := resolve sample; lookup := fun _ _ _ => PyNone |}
          (apply_rule attrs_rule PATTERN Flat1).
Proof.
  apply calls_independent_of_answers. reflexivity.
Defined.

(** ** Patterns of record-like types hold no [None] *)




(** ** Defaults of named tuples *)

Lemma named_tuple_defaults_lookup (typ : PyType) (name : string) :
  named_tuple_defaults typ !! name
  = match default ∅ (_field_defaults typ) !! name with
    | Some v => Some v
    | None => default ∅ (_fields_defaults typ) !! name
    end.
Proof.
  unfold named_tuple_defaults, dict_update.
  rewrite (right_id_L ∅ (∪)).
  destruct (default ∅ (_field_defaults typ) !! name) as [v |] eqn:Hnew.
  - by apply lookup_union_Some_l.
  - by rewrite lookup_union_r.
Qed.

(** X4.  When a named tuple carries both default tables, [_field_defaults]
    wins: for every field, in declared order, the default bound into the
    encoder is the one of [_field_defaults] if it has the name, else the
    one of [_fields_defaults], else [SENTINEL]; and the field is bound as
    required into the JSON check exactly when neither table has the name. *)
Theorem named_tuple_default_precedence (c : Collaborators) (typ : PyType)
    (fields : list (string * TypeRef)) :
  is_tuple_subclass typ = true →
  named_tuple_fields typ = Some fields →
  recorded_default <$> artifact_inner_map (run c (named_tuples PY2JSON typ))
  = (fun item => Some (declared_default typ item.1)) <$> fields
  ∧ recorded_required <$> artifact_inner_map (run c (named_tuples INSP_JSON typ))
    = (fun item =>
         Some (bool_decide (default ∅ (_field_defaults typ) !! item.1 = None
                            ∧ default ∅ (_fields_defaults typ) !! item.1 = None)))
        <$> fields.
Proof.
  intros Hsub Hfields.
  rewrite !(run_named_tuples c _ typ fields) by done. simpl.
  rewrite <- !list_fmap_compose.
  split; apply list_fmap_ext; intros _ [name declared] _;
    unfold recorded_default, recorded_required, declared_default; simpl;
    rewrite named_tuple_defaults_lookup;
    destruct (default ∅ (_field_defaults typ) !! name) as [v |]; simpl; try done.
  f_equal. apply bool_decide_ext. split; [by split | by intros [_ ?]].
Qed.

Lemma named_tuple_default_precedence_witness :
  recorded_default <$> artifact_inner_map (run sample (named_tuples PY2JSON TwoTables))
  = [Some SENTINEL; Some (PyStr "new"); Some (PyStr "kept")].
Proof.
  exact (proj1 (named_tuple_default_precedence sample TwoTables
                  [("a", TyClass "int"); ("b", TyClass "str"); ("c", TyClass "str")]
                  eq_refl eq_refl)).
Defined.

(** ** The artifacts of one type agree on its fields *)

Lemma names_of_required {A : Type} (entry : A → Tup) (xs : list A) :
  tup_name <$> filter (fun tup => tup_req tup = true) (entry <$> xs)
  = (fun x => tup_name (entry x)) <$> filter (fun x => tup_req (entry x) = true) xs.
Proof.
  induction xs as [| x rest IH]; [done |].
  rewrite fmap_cons.
  destruct (tup_req (entry x)) eqn:Hreq.
  - rewrite !filter_cons_True by done. by rewrite !fmap_cons, IH.
  - rewrite !filter_cons_False by (by rewrite Hreq). apply IH.
Qed.

Lemma named_tuple_pattern_entries_names (inner_map : list Tup) :
  artifact_field_names (Object_exact (named_tuple_pattern_entries inner_map))
  = tup_name <$> filter (fun tup => tup_req tup = true) inner_map.
Proof.
  unfold named_tuple_pattern_entries. simpl.
  rewrite <- list_fmap_compose. by apply list_fmap_ext.
Qed.

(** X5.  For a type matched by [attrs_classes] (with no check override) or
    by [named_tuples], the decoder, the encoder and the JSON check are bound
    to the same field names in the same order, and the pattern lists, in
    that order too, exactly the names the JSON check holds as required. *)
Theorem artifacts_agree_on_fields (c : Collaborators) (rule : Rule) (typ : PyType) :
  matched rule typ = true →
  rule ≠ Tuples →
  (∀ pre_hook post_hook check,
     rule = AttrsClasses pre_hook post_hook check →
     truthy (getattr typ check PyNone) = false) →
  artifact_field_names (run c (apply_rule rule PY2JSON typ))
  = artifact_field_names (run c (apply_rule rule JSON2PY typ))
  ∧ artifact_field_names (run c (apply_rule rule INSP_JSON typ))
    = artifact_field_names (run c (apply_rule rule JSON2PY typ))
  ∧ artifact_field_names (run c (apply_rule rule PATTERN typ))
    = tup_name <$> filter (fun tup => tup_req tup = true)
                     (artifact_inner_map (run c (apply_rule rule INSP_JSON typ)))
  ∧ artifact_field_names (run c (apply_rule rule PATTERN typ))
    `sublist_of` artifact_field_names (run c (apply_rule rule JSON2PY typ)).
Proof.
  intros Hmatched Hrule Hcheck. apply andb_true_iff in Hmatched as [Hshape _].
  destruct rule as [pre_hook post_hook check | |]; [| | done]; simpl.
  - apply attrs_fields_shape in Hshape as [fields Hfields].
    rewrite (run_attrs_classes_decode c typ fields) by done.
    rewrite (run_attrs_classes_encode c typ fields) by done.
    rewrite (run_attrs_classes_check c typ fields) by done.
    rewrite (run_attrs_classes_pattern c typ fields) by done.
    rewrite (Hcheck pre_hook post_hook check) by done.
    rewrite attrs_pattern_entries_names. simpl.
    rewrite !attrs_entry_names, !names_of_required.
    repeat (split; [done |]).
    apply fmap_sublist, sublist_filter.
  - apply named_tuple_fields_shape in Hshape as [Hsub [fields Hfields]].
    rewrite !(run_named_tuples c _ typ fields) by done.
    unfold named_tuple_artifact.
    rewrite named_tuple_pattern_entries_names. simpl.
    rewrite !named_tuple_entry_names, !names_of_required.
    repeat (split; [done |]).
    rewrite <- (named_tuple_entry_names c JSON2PY typ fields).
    rewrite <- list_fmap_compose.
    apply fmap_sublist, sublist_filter.
Qed.

Lemma artifacts_agree_on_fields_witness :
  artifact_field_names (run sample (apply_rule attrs_rule PATTERN Flat1))
  `sublist_of` artifact_field_names (run sample (apply_rule attrs_rule JSON2PY Flat1)).
Proof.
  apply (artifacts_agree_on_fields sample attrs_rule Flat1);
    [reflexivity | discriminate |].
  intros pre_hook post_hook check Hrule. injection Hrule as <- <- <-. reflexivity.
Defined.

(** ** Tuples are positional *)

(** X6.  For a [Tuple] type without [Ellipsis], [tuples] binds one element
    artifact per argument, position by position: the artifact's list is as
    long as [typ.__args__], and its [i]-th entry is what the context gave,
    for the same verb, for the [i]-th argument.  The decoder and the native
    check are built with [tuple], the encoder and the JSON check with
    [list], the pattern with [pat.Array.exact]. *)
Theorem tuples_positional (c : Collaborators) (typ : PyType) (verb : Verb) :
  matched Tuples typ = true →
  supported verb = true →
  ∃ inner,
    run c (tuples verb typ)
    = match verb with
      | JSON2PY => Partial_convert_tuple_as_list inner py_tuple
      | PY2JSON => Partial_convert_tuple_as_list inner py_list
      | INSP_PY => Partial_check_tuple_as_list inner py_tuple
      | INSP_JSON => Partial_check_tuple_as_list inner py_list
      | PATTERN => Array_exact inner
      | OtherVerb _ => Obj PyNone
      end
    ∧ length inner = length (__args__ typ)
    ∧ ∀ i arg, __args__ typ !! i = Some arg →
               inner !! i = Some (lookup c verb arg None).
Proof.
  intros Hmatched Hverb. apply andb_true_iff in Hmatched as [Hshape Hargs].
  apply bool_decide_eq_true in Hargs. simpl in Hshape.
  exists ((fun arg => lookup c verb arg None) <$> __args__ typ).
  split; [by rewrite run_tuples | split].
  - apply length_fmap.
  - intros i arg Harg. by rewrite list_lookup_fmap, Harg.
Qed.

Lemma tuples_positional_witness :
  ∃ inner,
    run sample (tuples PY2JSON (Tuple [TyClass "int"; TyClass "str"]))
    = Partial_convert_tuple_as_list inner py_list
    ∧ length inner = 2
    ∧ ∀ i arg, [TyClass "int"; TyClass "str"] !! i = Some arg →
               inner !! i = Some (lookup sample PY2JSON arg None).
Proof.
  apply (tuples_positional sample (Tuple [TyClass "int"; TyClass "str"]) PY2JSON);
    reflexivity.
Defined.

(** * Properties of the hooks in tests/types_attrs_noann.py *)

(** X7.  What [__json_post_encode__] returns always passes [__json_check__],
    whatever dict it was given, tagged or not. *)
Theorem post_encode_passes_check (value : gmap string JSON) :
  Hooks.__json_check__ (Hooks.__json_post_encode__ value) = inr true.
Proof.
  unfold Hooks.__json_check__, Hooks.__json_post_encode__.
  by rewrite lookup_insert_eq.
Qed.

(** X8.  [__json_post_encode__] only touches the [_type_] key: every other
    key keeps its value, a tag that was already there is replaced by
    ["Hook"], and encoding twice gives what encoding once gives. *)
Theorem post_encode_only_tags (value : gmap string JSON) :
  ∃ tagged,
    Hooks.__json_post_encode__ value = JDict tagged
    ∧ tagged !! "_type_" = Some (JStr "Hook")
    ∧ (∀ key, key ≠ "_type_" → tagged !! key = value !! key)
    ∧ Hooks.__json_post_encode__ tagged = JDict tagged.
Proof.
  exists (<["_type_" := JStr "Hook"]> value).
  split; [done |]. split; [apply lookup_insert_eq |]. split.
  - intros key Hkey. by apply lookup_insert_ne.
  - unfold Hooks.__json_post_encode__. by rewrite insert_insert_eq.
Qed.

(** X9.  [__json_pre_decode__] raises exactly on a list with fewer than two
    items, and what it raises is IndexError. *)
Theorem pre_decode_fails_on_short_list (value : JSON) (exc : PyExc) :
  Hooks.__json_pre_decode__ value = inl exc
  ↔ exc = IndexError ∧ ∃ items, value = JList items ∧ length items < 2.
Proof.
  split.
  - destruct value as [| | | | items |]; try discriminate.
    destruct items as [| a [| b rest]]; simpl; try discriminate;
      intros [= <-]; (split; [done |]); eexists; (split; [done |]); simpl; lia.
  - intros [-> (items & -> & Hshort)].
    destruct items as [| a [| b rest]]; simpl in *; try done; lia.
Qed.

(** X10.  When [__json_pre_decode__] returns, the result is never a list;
    a value that is not a list comes back as it is, a list comes back as the
    dict of its first two items under the keys [a] and [b] (further items
    are dropped), and decoding the result again changes nothing. *)
Theorem pre_decode_result (value result : JSON) :
  Hooks.__json_pre_decode__ value = inr result →
  (∀ items, result ≠ JList items)
  ∧ ((∀ items, value ≠ JList items) → result = value)
  ∧ (∀ a b rest, value = JList (a :: b :: rest) →
                 result = JDict {[ "a" := a; "b" := b ]})
  ∧ Hooks.__json_pre_decode__ result = inr result.
Proof.
  intros Hresult.
  destruct value as [| | | | items |]; simpl in Hresult.
  1-4, 6: injection Hresult as <-; repeat split; try done; by intros ? ? ? [=].
  destruct items as [| a [| b rest]]; simpl in Hresult; try discriminate.
  injection Hresult as <-. repeat split; try done.
  - intros Hlist. by destruct (Hlist (a :: b :: rest)).
  - by intros ? ? ? [= <- <- <-].
Qed.

Lemma pre_decode_result_witness :
  Hooks.__json_pre_decode__ (JDict {[ "a" := JInt 1; "b" := JStr "x" ]})
  = inr (JDict {[ "a" := JInt 1; "b" := JStr "x" ]}).
Proof.
  exact (proj2 (proj2 (proj2 (pre_decode_result
           (JList [JInt 1; JStr "x"; JBool true])
           (JDict {[ "a" := JInt 1; "b" := JStr "x" ]}) eq_refl)))).
Defined.

(** X11.  [__json_check__] does not accept the list form that
    [__json_pre_decode__] takes: on a list it raises AttributeError, and on
    the dict [__json_pre_decode__] makes of a list it answers [False]. *)
Theorem check_rejects_list_form (items : list JSON) :
  Hooks.__json_check__ (JList items) = inl AttributeError
  ∧ ∀ decoded, Hooks.__json_pre_decode__ (JList items) = inr decoded →
               Hooks.__json_check__ decoded = inr false.
Proof.
  split; [done |].
  intros decoded Hdecoded.
  destruct items as [| a [| b rest]]; simpl in Hdecoded; try discriminate.
  injection Hdecoded as <-. unfold Hooks.__json_check__.
  rewrite lookup_insert_ne by done. by rewrite lookup_singleton_ne.
Qed.

Lemma check_rejects_list_form_witness :
  Hooks.__json_check__ (JDict {[ "a" := JInt 1; "b" := JStr "x" ]}) = inr false.
Proof.
  exact (proj2 (check_rejects_list_form [JInt 1; JStr "x"])
           (JDict {[ "a" := JInt 1; "b" := JStr "x" ]}) eq_refl).
Defined.
